(** * Wintertodt bot (src/model/osrs/wintertodt.py): a shallow embedding

    The bot is a Python class whose methods mutate a handful of instance
    fields ([round_active], [round_ended_at], [last_chat_msg],
    [damage_count], ...).  Each method is modelled as a function from the
    fields it reads to the fields it writes, with the perception queries of
    the RuneLite HTTP API (chat line, inventory, idle flag, region id,
    clock) passed in as explicit inputs.  Actuation (mouse moves, clicks,
    sleeps) changes none of the modelled fields and is represented by the
    name of the sub-routine the method calls. *)

From Stdlib Require Import ZArith QArith String Ascii List Bool Lia.
Import ListNotations.

Open Scope Z_scope.
Open Scope string_scope.

(** ** Constants *)

Definition WT_ARENA_REGION : Z := 6462.
Definition WT_BANK_REGION : Z := 6461.
Definition WT_RESPAWN_SECONDS : Z := 60.

Definition BRUMA_ROOT : Z := 20695.
Definition BRUMA_KINDLING : Z := 20696.
Definition REJUVENATION_POTION_4 : Z := 20699.
Definition REJUVENATION_POTION_3 : Z := 20700.
Definition REJUVENATION_POTION_2 : Z := 20701.
Definition REJUVENATION_POTION_1 : Z := 20702.

(** [REJUV_POTION_IDS], ordered [4-dose, 3-dose, 2-dose, 1-dose]. *)
Definition REJUV_POTION_IDS : list Z :=
  [REJUVENATION_POTION_4; REJUVENATION_POTION_3;
   REJUVENATION_POTION_2; REJUVENATION_POTION_1].

(** ** Runtime state of [OSRSWintertodt] *)

Record bot := Bot {
  round_active : bool;
  round_ended_at : Q;
  last_chat_msg : string;
  damage_count : Z;
  rounds_completed : Z;
  eat_every_n_hits : Z;
  fletch_roots : bool
}.

(** [__init__]'s runtime defaults, with the two options as chosen. *)
Definition init_bot (n_hits : Z) (fletch : bool) : bot :=
  Bot false 0%Q "" 0 0 n_hits fletch.

Definition set_round_active (b : bool) (s : bot) : bot :=
  Bot b (round_ended_at s) (last_chat_msg s) (damage_count s)
      (rounds_completed s) (eat_every_n_hits s) (fletch_roots s).
Definition set_round_ended_at (t : Q) (s : bot) : bot :=
  Bot (round_active s) t (last_chat_msg s) (damage_count s)
      (rounds_completed s) (eat_every_n_hits s) (fletch_roots s).
Definition set_last_chat_msg (m : string) (s : bot) : bot :=
  Bot (round_active s) (round_ended_at s) m (damage_count s)
      (rounds_completed s) (eat_every_n_hits s) (fletch_roots s).
Definition set_damage_count (d : Z) (s : bot) : bot :=
  Bot (round_active s) (round_ended_at s) (last_chat_msg s) d
      (rounds_completed s) (eat_every_n_hits s) (fletch_roots s).
Definition set_rounds_completed (r : Z) (s : bot) : bot :=
  Bot (round_active s) (round_ended_at s) (last_chat_msg s) (damage_count s)
      r (eat_every_n_hits s) (fletch_roots s).

(** ** Inventory queries

    The inventory is the list of the 28 slots, [None] for an empty slot and
    [Some id] for a slot holding item [id]. *)

Definition inventory := list (option Z).

Definition slot_holds (id : Z) (o : option Z) : bool :=
  match o with Some j => Z.eqb j id | None => false end.

(** [get_inv_item_indices]: the indices of the slots holding [id]. *)
Fixpoint inv_item_indices_from (i : nat) (inv : inventory) (id : Z) : list nat :=
  match inv with
  | [] => []
  | o :: r =>
      if slot_holds id o then i :: inv_item_indices_from (S i) r id
      else inv_item_indices_from (S i) r id
  end.

Definition get_inv_item_indices (inv : inventory) (id : Z) : list nat :=
  inv_item_indices_from 0 inv id.

(** [get_if_item_in_inv]. *)
Definition get_if_item_in_inv (inv : inventory) (id : Z) : bool :=
  existsb (slot_holds id) inv.

(** ** Python string operations on ASCII strings *)

Definition ascii_lower (c : ascii) : ascii :=
  let n := nat_of_ascii c in
  if (65 <=? n)%nat && (n <=? 90)%nat then ascii_of_nat (n + 32) else c.

(** [str.lower]. *)
Fixpoint str_lower (s : string) : string :=
  match s with
  | EmptyString => EmptyString
  | String c r => String (ascii_lower c) (str_lower r)
  end.

(** [sub in s]. *)
Fixpoint str_contains (sub s : string) : bool :=
  prefix sub s ||
  match s with
  | EmptyString => false
  | String _ r => str_contains sub r
  end.

(** [s.startswith(p)]. *)
Definition startswith (s p : string) : bool := prefix p s.

(** ** [__check_round_status] *)

Inductive round_status :=
  | RoundEnd | BrazierOut | BrazierBroken | Damaged | NoStatus.

(** The chat query is [None] when [get_latest_chat_message] raises.
    Returns the status and the new value of [last_chat_msg]. *)
Definition check_round_status (chat : option string) (last : string)
  : round_status * string :=
  match chat with
  | None => (NoStatus, last)
  | Some msg =>
      if String.eqb msg "" || String.eqb msg last then (NoStatus, last)
      else
        (if str_contains "subdued" (str_lower msg) then RoundEnd
         else if startswith msg "The brazier has gone out" then BrazierOut
         else if startswith msg "The brazier is broken and shrapnel"
         then BrazierBroken
         else if startswith msg "The cold of"
                 || startswith msg "The freezing cold attack" then Damaged
         else NoStatus, msg)
  end.

(** The bot-level wrapper: reads and writes [self.last_chat_msg]. *)
Definition check_round_status_bot (chat : option string) (s : bot)
  : round_status * bot :=
  let (st, last) := check_round_status chat (last_chat_msg s) in
  (st, set_last_chat_msg last s).

(** ** Rejuvenation potions *)

(** [__count_potion_doses]: [enumerate(REJUV_POTION_IDS, start=1)]. *)
Fixpoint count_doses_from (dose : Z) (ids : list Z) (inv : inventory) : Z :=
  match ids with
  | [] => 0
  | item_id :: r =>
      let dose_value := 4 - (dose - 1) in
      Z.of_nat (length (get_inv_item_indices inv item_id)) * dose_value
      + count_doses_from (dose + 1) r inv
  end.

Definition count_potion_doses (inv : inventory) : Z :=
  count_doses_from 1 REJUV_POTION_IDS inv.

(** [__has_any_potion]. *)
Definition has_any_potion (inv : inventory) : bool :=
  existsb (get_if_item_in_inv inv) REJUV_POTION_IDS.

(** [__drink_potion]: the first dose variant with a slot is clicked and the
    counter is reset; with none it only logs. *)
Definition drink_potion (s : bot) (inv : inventory) : bot :=
  if existsb (fun item_id =>
                negb (Nat.eqb (length (get_inv_item_indices inv item_id)) 0))
             REJUV_POTION_IDS
  then set_damage_count 0 s
  else s.

(** [__handle_warmth]: [false] means out of potions. *)
Definition handle_warmth (s : bot) (inv : inventory) : bool * bot :=
  if Z.geb (damage_count s) (eat_every_n_hits s) then
    if negb (has_any_potion inv) then (false, s)
    else (true, drink_potion s inv)
  else (true, s).

(** ** [__do_wintertodt_actions] *)

Inductive wt_action := Chop | Fletch | Feed.

(** The perception samples of one tick of the main loop. *)
Record env := Env {
  env_chat : option string;   (** [get_latest_chat_message], [None] if it raises *)
  env_inv : inventory;        (** inventory slots *)
  env_inv_full : bool;        (** [get_is_inv_full] *)
  env_idle : bool;            (** [get_is_player_idle] *)
  env_now : Q                 (** [time.time()] *)
}.

(** [None]: the player is busy, the method sleeps and returns. *)
Definition do_wintertodt_actions (s : bot) (e : env) : option wt_action :=
  let has_roots := get_if_item_in_inv (env_inv e) BRUMA_ROOT in
  let has_kindling := get_if_item_in_inv (env_inv e) BRUMA_KINDLING in
  let inv_full := env_inv_full e in
  if negb (env_idle e) then None
  else if inv_full || (has_roots && negb (fletch_roots s)) || has_kindling then
    if fletch_roots s && has_roots then Some Fletch else Some Feed
  else Some Chop.

(** ** [__on_round_end]: the fields it writes; the boolean says whether it
    calls [__prepare_potions] ([doses < 4]). *)
Definition on_round_end (s : bot) (e : env) : bot * bool :=
  let s := set_round_active false s in
  let s := set_rounds_completed (rounds_completed s + 1) s in
  let s := set_round_ended_at (env_now e) s in
  (s, Z.ltb (count_potion_doses (env_inv e)) 4).

(** ** [__handle_arena] *)

(** The sub-routine a tick of the arena logic ends in. *)
Inductive arena_action :=
  | AOnRoundEnd (prepares : bool)
  | ARelight
  | ARepair
  | APreparePotions
  | AExitArena
  | AActions (a : option wt_action)
  | AEngage          (** timer fallback fired: [round_active = True] *)
  | AWaitSleep.      (** [time.sleep(2)] *)

Definition respawn_elapsed (s : bot) (now : Q) : bool :=
  negb (Qle_bool (round_ended_at s) 0)
  && Qle_bool (inject_Z (WT_RESPAWN_SECONDS + 5)) (now - round_ended_at s).

Definition handle_arena (s : bot) (e : env) : bot * arena_action :=
  let (round_status, s) := check_round_status_bot (env_chat e) s in
  match round_status with
  | RoundEnd => let (s, p) := on_round_end s e in (s, AOnRoundEnd p)
  | BrazierOut => (s, ARelight)
  | BrazierBroken => (set_damage_count (damage_count s + 1) s, ARepair)
  | _ =>
      let s :=
        match round_status with
        | Damaged => set_round_active true (set_damage_count (damage_count s + 1) s)
        | _ => s
        end in
      let (ok, s) := handle_warmth s (env_inv e) in
      if negb ok then
        if negb (round_active s) then (s, APreparePotions) else (s, AExitArena)
      else if round_active s then (s, AActions (do_wintertodt_actions s e))
      else if negb (has_any_potion (env_inv e)) then (s, APreparePotions)
      else if respawn_elapsed s (env_now e) then (set_round_active true s, AEngage)
      else (s, AWaitSleep)
  end.

(** ** [__is_in_arena] and [__enter_arena] *)

(** [get_player_region_data] gives the region id, [None] if it raises. *)
Definition is_in_arena (region : option Z) : bool :=
  match region with Some r => Z.eqb r WT_ARENA_REGION | None => false end.

(** [for _ in range(n): if p(sample): return True]; missing samples count
    as failed queries. *)
Fixpoint retry_until {A} (n : nat) (p : A -> bool) (samples : list A) : bool :=
  match n, samples with
  | O, _ => false
  | S _, [] => false
  | S n', x :: r => p x || retry_until n' p r
  end.

(** [doors_found]: the GREEN door query returned candidates; [polls]: the
    region samples of the retry loop.  The boolean is "Entered arena.". *)
Definition enter_arena (s : bot) (doors_found : bool) (polls : list (option Z))
  : bot * bool :=
  if negb doors_found then (s, false)
  else if retry_until 10 is_in_arena polls then
    (set_damage_count 0 (set_round_active true s), true)
  else (s, false).

(** ** [__wait_while_active]: the polls taken before the timeout, each an
    idle sample and a chat sample. *)
Fixpoint wait_while_active (s : bot) (polls : list (bool * option string)) : bot :=
  match polls with
  | [] => s
  | (idle, chat) :: r =>
      if idle then s
      else
        let (round_status, s) := check_round_status_bot chat s in
        match round_status with
        | RoundEnd => set_round_active false s
        | Damaged | BrazierBroken => set_damage_count (damage_count s + 1) s
        | BrazierOut => s
        | NoStatus => wait_while_active s r
        end
  end.

(** ** Every operation that writes [damage_count] *)

Inductive op :=
  | OpArenaTick (e : env)
  | OpEnterArena (doors_found : bool) (polls : list (option Z))
  | OpWaitWhileActive (polls : list (bool * option string))
  | OpDrinkPotion (inv : inventory).

Definition run_op (s : bot) (o : op) : bot :=
  match o with
  | OpArenaTick e => fst (handle_arena s e)
  | OpEnterArena d p => fst (enter_arena s d p)
  | OpWaitWhileActive p => wait_while_active s p
  | OpDrinkPotion inv => drink_potion s inv
  end.

Inductive reachable : bot -> Prop :=
  | reach_init n f : reachable (init_bot n f)
  | reach_step s o : reachable s -> reachable (run_op s o).

(** ** The decision order as the spec words it (for comparison with
    [do_wintertodt_actions]) *)
Definition spec_planner (inv_full has_kindling has_roots fletch : bool) : wt_action :=
  if inv_full || has_kindling || (has_roots && negb fletch) then Feed
  else if fletch && has_roots then Fletch
  else Chop.

(** Number of slots holding [id]. *)
Fixpoint slot_count (inv : inventory) (id : Z) : nat :=
  match inv with
  | [] => O
  | o :: r => (if slot_holds id o then 1 else 0) + slot_count r id
  end%nat.

(** Replaying a chat stream from a given [last_chat_msg]. *)
Fixpoint classify_stream (last : string) (lines : list string) : list round_status :=
  match lines with
  | [] => []
  | l :: r =>
      let (st, last') := check_round_status (Some l) last in
      st :: classify_stream last' r
  end.

Definition status_is_damaged (r : round_status) : bool :=
  match r with Damaged => true | _ => false end.

(** Successive ticks of [__handle_arena]. *)
Fixpoint run_ticks (s : bot) (es : list env) : list (bot * arena_action) :=
  match es with
  | [] => []
  | e :: r => let (s', a) := handle_arena s e in (s', a) :: run_ticks s' r
  end.

Definition cold_line := "The cold of the Wintertodt chills you.".
Definition freezing_line := "The freezing cold attack of the Wintertodt hits you.".

(** ** Gear validation ([__validate_and_gear_up], [__withdraw_missing_tools])

    The item ids are those the source's comments give for [ids.*]. *)

Definition TINDERBOX : Z := 590.
Definition HAMMER : Z := 2347.
Definition KNIFE : Z := 946.
Definition BRUMA_TORCH : Z := 20720.
Definition INFERNAL_AXE : Z := 13241.

(** [AXE_IDS]. *)
Definition AXE_IDS : list Z :=
  [1351; 1349; 1353; 1361; 1355; 1357; 1359; 6739; INFERNAL_AXE; 23673].

(** [WARM_ITEM_IDS | WARM_AXE_IDS]: the union has no repeated element. *)
Definition WARM_ITEM_IDS : list Z :=
  [20708; 20704; 20706; 20710; 19689; 19691; 19693; 19695; 19697;
   1387; 1393; 3053; 6570; 9804; 9805; 6568; 20712; BRUMA_TORCH; 20714; 20716;
   1050; 4166; 6856; 6862; 6863; 6858; 3799; 9806; 12888; 12889; 12890; 12891].
Definition WARM_AXE_IDS : list Z := [INFERNAL_AXE].

(** What the API answers while gearing up: the equipped item ids and the
    inventory. *)
Record gear_view := GearView {
  g_equipped : list Z;
  g_inv : inventory
}.

(** [get_is_item_equipped]. *)
Definition get_is_item_equipped (g : gear_view) (id : Z) : bool :=
  existsb (Z.eqb id) (g_equipped g).

Definition has_tinderbox_in (g : gear_view) : bool :=
  get_if_item_in_inv (g_inv g) TINDERBOX || get_if_item_in_inv (g_inv g) BRUMA_TORCH.

Definition has_knife_in (fletch : bool) (g : gear_view) : bool :=
  if fletch then get_if_item_in_inv (g_inv g) KNIFE else true.

(** [__withdraw_missing_tools]: [False] without a tagged bank chest or when
    the mouse-over shows neither "Bank" nor "Use"; the search-and-click loop
    itself never fails. *)
Definition withdraw_missing_tools (bank_found mouseover_bank mouseover_use : bool) : bool :=
  if negb bank_found then false
  else if negb mouseover_bank && negb mouseover_use then false
  else true.

Record gear_result := GearResult {
  gr_ok : bool;               (** the returned boolean *)
  gr_warm_count : nat;        (** [warm_count], only logged *)
  gr_missing : list string;   (** the names in [missing] *)
  gr_bank_visited : bool      (** [__withdraw_missing_tools] was called *)
}.

(** The first check's [missing] list. *)
Definition first_check_missing (fletch : bool) (g1 : gear_view) : list string :=
  let has_axe_equipped := existsb (get_is_item_equipped g1) AXE_IDS in
  let has_axe_in_inv :=
    if negb has_axe_equipped then existsb (get_if_item_in_inv (g_inv g1)) AXE_IDS
    else false in
  let has_tinderbox := has_tinderbox_in g1 in
  let has_hammer := get_if_item_in_inv (g_inv g1) HAMMER in
  let has_knife := has_knife_in fletch g1 in
  ((if negb has_axe_equipped && negb has_axe_in_inv then ["axe"] else [])
   ++ (if negb has_tinderbox then ["tinderbox"] else [])
   ++ (if negb has_hammer then ["hammer"] else [])
   ++ (if negb has_knife then ["knife"] else []))%list.

(** The re-check after the bank withdrawal. *)
Definition recheck_after_withdrawal (fletch : bool) (g2 : gear_view) : bool :=
  let has_tinderbox := has_tinderbox_in g2 in
  let has_hammer := get_if_item_in_inv (g_inv g2) HAMMER in
  let has_knife := has_knife_in fletch g2 in
  let has_axe_in_inv := existsb (get_if_item_in_inv (g_inv g2)) AXE_IDS in
  let has_axe_equipped := existsb (get_is_item_equipped g2) AXE_IDS in
  if negb has_tinderbox || negb has_hammer || (fletch && negb has_knife) then false
  else if negb has_axe_equipped && negb has_axe_in_inv then false
  else true.

(** [__validate_and_gear_up]. [g1]: the first check; [bank_found],
    [mo_bank], [mo_use]: the bank chest query and mouse-over texts of the
    withdrawal; [g2]: the re-check. *)
Definition validate_and_gear_up (fletch : bool) (g1 : gear_view)
    (bank_found mo_bank mo_use : bool) (g2 : gear_view) : gear_result :=
  let warm_count :=
    length (filter (get_is_item_equipped g1) (WARM_ITEM_IDS ++ WARM_AXE_IDS)%list) in
  let missing := first_check_missing fletch g1 in
  match missing with
  | [] => GearResult true warm_count missing false
  | _ :: _ =>
      if negb (withdraw_missing_tools bank_found mo_bank mo_use) then
        GearResult false warm_count missing true
      else GearResult (recheck_after_withdrawal fletch g2) warm_count missing true
  end.

(** The hard requirements, read off the checks above: an axe equipped or
    carried, a tinderbox (or bruma torch), a hammer, and a knife when
    fletching. *)
Definition hard_requirements (fletch : bool) (g : gear_view) : bool :=
  (existsb (get_is_item_equipped g) AXE_IDS || existsb (get_if_item_in_inv (g_inv g)) AXE_IDS)
  && has_tinderbox_in g && get_if_item_in_inv (g_inv g) HAMMER && has_knife_in fletch g.

(** ** Bank area ([__handle_bank_area], [__deposit_non_tools]) *)

(** [get_inv]: the occupied slots as (index, id). *)
Fixpoint get_inv_from (i : nat) (inv : inventory) : list (nat * Z) :=
  match inv with
  | [] => []
  | None :: r => get_inv_from (S i) r
  | Some id :: r => (i, id) :: get_inv_from (S i) r
  end.

Definition get_inv (inv : inventory) : list (nat * Z) := get_inv_from 0 inv.

(** [tool_ids]. *)
Definition tool_ids (fletch : bool) : list Z :=
  ([TINDERBOX; HAMMER] ++ (if fletch then [KNIFE] else []))%list.

Definition is_tool (fletch : bool) (id : Z) : bool := existsb (Z.eqb id) (tool_ids fletch).

Definition has_loot (fletch : bool) (inv : inventory) : bool :=
  existsb (fun item => negb (is_tool fletch (snd item))) (get_inv inv).

(** [__deposit_non_tools]: the slot indices clicked, in order. *)
Definition deposit_non_tools (fletch : bool) (inv : inventory) : list nat :=
  map fst (filter (fun item => negb (is_tool fletch (snd item))) (get_inv inv)).

Inductive bank_action := BDoBanking | BEnterArena (entered : bool).

(** [__handle_bank_area]; [__do_banking] writes none of the fields. *)
Definition handle_bank_area (s : bot) (inv : inventory) (doors_found : bool)
    (polls : list (option Z)) : bot * bank_action :=
  if has_loot (fletch_roots s) inv then (s, BDoBanking)
  else let (s', ok) := enter_arena s doors_found polls in (s', BEnterArena ok).

(** ** Bank interface geometry ([__get_bank_origin]) *)

Definition BANK_INTERFACE_W : Z := 488.
Definition BANK_INTERFACE_H : Z := 300.

Record rect := Rect { r_left : Z; r_top : Z; r_width : Z; r_height : Z }.

(** Python's [//] on integers is [Z.div] (floor). *)
Definition get_bank_origin (gv : rect) : Z * Z :=
  (r_left gv + (r_width gv - BANK_INTERFACE_W) / 2,
   r_top gv + (r_height gv - BANK_INTERFACE_H) / 2).

(** ** [__prepare_potions] *)





(** The click loop of [__take_from_crate] and [__pick_herbs]:
    [for _ in range(count)], clicking while the mouse-over shows the option
    and breaking at the first one that does not. *)
Fixpoint click_loop (n : nat) (mouseovers : list bool) : nat :=
  match n, mouseovers with
  | O, _ => O
  | S _, [] => O
  | S n', m :: r => if m then S (click_loop n' r) else O
  end.

(** Number of clicks; [found]: the tagged crate (or sprouting roots) query
    returned candidates. *)
Definition take_from_crate (found : bool) (count : Z) (mouseovers : list bool) : nat :=
  if negb found then O else click_loop (Z.to_nat count) mouseovers.


(** ** [save_options] *)

(** A GUI value: a slider's integer or a checkbox's list of labels. *)
Inductive opt_value := OInt (n : Z) | OList (l : list string).

Record options := Options {
  o_running_time : opt_value;
  o_eat_every_n_hits : opt_value;
  o_potion_count : opt_value;
  o_fletch_roots : bool;
  o_take_breaks : bool;
  o_options_set : bool
}.

(** [options[option] != []]. *)
Definition ne_empty_list (v : opt_value) : bool :=
  match v with OList [] => false | _ => true end.

Definition save_option (o : options) (k : string) (v : opt_value) : option options :=
  if String.eqb k "running_time" then
    Some (Options v (o_eat_every_n_hits o) (o_potion_count o) (o_fletch_roots o)
                  (o_take_breaks o) (o_options_set o))
  else if String.eqb k "eat_every_n_hits" then
    Some (Options (o_running_time o) v (o_potion_count o) (o_fletch_roots o)
                  (o_take_breaks o) (o_options_set o))
  else if String.eqb k "potion_count" then
    Some (Options (o_running_time o) (o_eat_every_n_hits o) v (o_fletch_roots o)
                  (o_take_breaks o) (o_options_set o))
  else if String.eqb k "fletch_roots" then
    Some (Options (o_running_time o) (o_eat_every_n_hits o) (o_potion_count o)
                  (ne_empty_list v) (o_take_breaks o) (o_options_set o))
  else if String.eqb k "take_breaks" then
    Some (Options (o_running_time o) (o_eat_every_n_hits o) (o_potion_count o)
                  (o_fletch_roots o) (ne_empty_list v) (o_options_set o))
  else None.

Definition set_options_set (b : bool) (o : options) : options :=
  Options (o_running_time o) (o_eat_every_n_hits o) (o_potion_count o)
          (o_fletch_roots o) (o_take_breaks o) b.

(** The dict's items in iteration order.  An unknown key sets
    [options_set = False] and returns; otherwise [options_set = True]. *)
Fixpoint save_options (o : options) (opts : list (string * opt_value)) : options :=
  match opts with
  | [] => set_options_set true o
  | (k, v) :: r =>
      match save_option o k v with
      | Some o' => save_options o' r
      | None => set_options_set false o
      end
  end.

Definition known_option (k : string) : bool :=
  existsb (String.eqb k)
    ["running_time"; "eat_every_n_hits"; "potion_count"; "fletch_roots"; "take_breaks"].

(** The operations in which [__on_round_end] runs. *)
Definition op_sees_round_end (s : bot) (o : op) : bool :=
  match o with
  | OpArenaTick e =>
      match fst (check_round_status (env_chat e) (last_chat_msg s)) with
      | RoundEnd => true
      | _ => false
      end
  | _ => false
  end.

(** ** Lemmas *)

Lemma inv_item_indices_from_length i inv id :
  length (inv_item_indices_from i inv id) = slot_count inv id.
Proof.
  revert i; induction inv as [|o r IH]; intros i; simpl; [reflexivity|].
  destruct (slot_holds id o); simpl; rewrite IH; reflexivity.
Qed.

Lemma get_inv_item_indices_length inv id :
  length (get_inv_item_indices inv id) = slot_count inv id.
Proof. apply inv_item_indices_from_length. Qed.

Lemma slot_count_app inv1 inv2 id :
  slot_count (inv1 ++ inv2)%list id = (slot_count inv1 id + slot_count inv2 id)%nat.
Proof. induction inv1 as [|o r IH]; simpl; [reflexivity|]. rewrite IH; lia. Qed.

Lemma slot_count_repeat id id' k :
  slot_count (repeat (Some id) k) id' = if Z.eqb id id' then k else O.
Proof.
  induction k as [|k IH]; simpl.
  - destruct (Z.eqb id id'); reflexivity.
  - rewrite IH. destruct (Z.eqb id id'); reflexivity.
Qed.

Lemma get_if_item_in_inv_count inv id :
  get_if_item_in_inv inv id = negb (Nat.eqb (slot_count inv id) 0).
Proof.
  unfold get_if_item_in_inv; induction inv as [|o r IH]; simpl; [reflexivity|].
  rewrite IH. destruct (slot_holds id o); simpl; [|reflexivity].
  destruct (slot_count r id); reflexivity.
Qed.

(** [__drink_potion] finds a slot exactly when [__has_any_potion] holds. *)
Lemma drink_potion_has_any s inv :
  drink_potion s inv =
  if has_any_potion inv then set_damage_count 0 s else s.
Proof.
  unfold drink_potion, has_any_potion.
  replace (existsb (fun item_id =>
             negb (Nat.eqb (length (get_inv_item_indices inv item_id)) 0))
             REJUV_POTION_IDS)
    with (existsb (get_if_item_in_inv inv) REJUV_POTION_IDS); [reflexivity|].
  unfold REJUV_POTION_IDS; simpl.
  rewrite !get_inv_item_indices_length, !get_if_item_in_inv_count; reflexivity.
Qed.

Lemma str_lower_app a b : str_lower (a ++ b) = str_lower a ++ str_lower b.
Proof. induction a as [|c r IH]; simpl; [reflexivity|]. rewrite IH; reflexivity. Qed.

Lemma prefix_app_self p z : prefix p (p ++ z) = true.
Proof.
  induction p as [|c r IH]; simpl; [destruct z; reflexivity|].
  destruct (ascii_dec c c); [exact IH|contradiction].
Qed.

Lemma str_contains_app_l sub a b :
  str_contains sub b = true -> str_contains sub (a ++ b) = true.
Proof.
  induction a as [|c r IH]; simpl; intros H; [exact H|].
  rewrite (IH H). apply orb_true_r.
Qed.

Lemma str_contains_prefix sub z : str_contains sub (sub ++ z) = true.
Proof.
  destruct sub as [|c r]; simpl.
  - destruct z; reflexivity.
  - pose proof (prefix_app_self (String c r) z) as H; simpl in H.
    rewrite H; reflexivity.
Qed.

(** ** C1: the action planner *)

(** C1 (counterexample).  Fletching enabled, roots in a full inventory and
    the player idle: the code fletches, while the spec's order feeds the
    brazier. *)
Lemma C1_counterexample :
  do_wintertodt_actions (init_bot 3 true)
    (Env None [Some BRUMA_ROOT] true true 0)
  <> Some (spec_planner true false true true).
Proof. vm_compute. discriminate. Qed.

(** C1 (amended).  A busy player gets no action.  An idle player: with
    fletching enabled and roots present, roots are fletched once the
    inventory is full or kindling is present, and chopped otherwise; when
    the inventory is full, kindling is present, or roots are present with
    fletching disabled, and fletching is not possible, the brazier is fed;
    with neither a full inventory, kindling nor roots, roots are chopped. *)
Theorem C1_planner_decision_table (s : bot) (e : env) :
  let roots := get_if_item_in_inv (env_inv e) BRUMA_ROOT in
  let kindling := get_if_item_in_inv (env_inv e) BRUMA_KINDLING in
  let full := env_inv_full e in
  (env_idle e = false -> do_wintertodt_actions s e = None) /\
  (env_idle e = true ->
     (fletch_roots s = true -> roots = true ->
        do_wintertodt_actions s e =
          if full || kindling then Some Fletch else Some Chop) /\
     ((full || kindling || (roots && negb (fletch_roots s))) = true ->
        (fletch_roots s && roots) = false ->
        do_wintertodt_actions s e = Some Feed) /\
     (full = false -> kindling = false -> roots = false ->
        do_wintertodt_actions s e = Some Chop)).
Proof.
  simpl; unfold do_wintertodt_actions.
  destruct (env_idle e); simpl; split; intros H; try discriminate; [|reflexivity].
  destruct (get_if_item_in_inv (env_inv e) BRUMA_ROOT),
           (get_if_item_in_inv (env_inv e) BRUMA_KINDLING),
           (env_inv_full e), (fletch_roots s);
    simpl; repeat split; intros; try discriminate; reflexivity.
Qed.

(** Witness for [C1_planner_decision_table]. *)
Lemma C1_planner_decision_table_witness :
  do_wintertodt_actions (init_bot 3 true) (Env None [Some BRUMA_ROOT] false true 0)
  = Some Chop.
Proof.
  destruct (C1_planner_decision_table (init_bot 3 true)
              (Env None [Some BRUMA_ROOT] false true 0)) as [_ H].
  destruct (H eq_refl) as [H1 _].
  exact (H1 eq_refl eq_refl).
Defined.

(** ** C7: no chopping with a full inventory *)

(** C7.  When [get_is_inv_full] reports a full inventory the planner never
    chops: an idle player fletches or feeds, a busy one does nothing. *)
Theorem C7_full_inventory_never_chops (s : bot) (e : env) :
  env_inv_full e = true ->
  do_wintertodt_actions s e <> Some Chop /\
  (env_idle e = true ->
     do_wintertodt_actions s e = Some Fletch \/ do_wintertodt_actions s e = Some Feed).
Proof.
  intros Hfull; unfold do_wintertodt_actions; rewrite Hfull; simpl.
  destruct (env_idle e); simpl.
  - destruct (fletch_roots s && get_if_item_in_inv (env_inv e) BRUMA_ROOT);
      split; try discriminate; auto.
  - split; [discriminate | intros H; discriminate].
Qed.

(** Witness for [C7_full_inventory_never_chops]. *)
Lemma C7_full_inventory_never_chops_witness :
  do_wintertodt_actions (init_bot 3 false) (Env None [] true true 0) <> Some Chop.
Proof.
  exact (proj1 (C7_full_inventory_never_chops (init_bot 3 false)
                  (Env None [] true true 0) eq_refl)).
Defined.

(** ** C9: dose accounting *)

(** C9.  The dose total is [4 c4 + 3 c3 + 2 c2 + c1], [ci] the number of
    slots holding the [i]-dose potion, and appending [k] slots of the
    [d]-dose variant adds exactly [k * d]. *)
Theorem C9_dose_count_linear (inv : inventory) (k : nat) :
  count_potion_doses inv =
    4 * Z.of_nat (slot_count inv REJUVENATION_POTION_4)
  + 3 * Z.of_nat (slot_count inv REJUVENATION_POTION_3)
  + 2 * Z.of_nat (slot_count inv REJUVENATION_POTION_2)
  + 1 * Z.of_nat (slot_count inv REJUVENATION_POTION_1) /\
  count_potion_doses (inv ++ repeat (Some REJUVENATION_POTION_4) k)%list
    = count_potion_doses inv + Z.of_nat k * 4 /\
  count_potion_doses (inv ++ repeat (Some REJUVENATION_POTION_3) k)%list
    = count_potion_doses inv + Z.of_nat k * 3 /\
  count_potion_doses (inv ++ repeat (Some REJUVENATION_POTION_2) k)%list
    = count_potion_doses inv + Z.of_nat k * 2 /\
  count_potion_doses (inv ++ repeat (Some REJUVENATION_POTION_1) k)%list
    = count_potion_doses inv + Z.of_nat k * 1.
Proof.
  assert (Hc : forall inv, count_potion_doses inv =
    4 * Z.of_nat (slot_count inv REJUVENATION_POTION_4)
  + 3 * Z.of_nat (slot_count inv REJUVENATION_POTION_3)
  + 2 * Z.of_nat (slot_count inv REJUVENATION_POTION_2)
  + 1 * Z.of_nat (slot_count inv REJUVENATION_POTION_1)).
  { intros i; unfold count_potion_doses, REJUV_POTION_IDS; cbn [count_doses_from].
    rewrite !get_inv_item_indices_length; lia. }
  split; [apply Hc|].
  rewrite !Hc, !slot_count_app, !slot_count_repeat.
  vm_compute Z.eqb; cbv iota; repeat split; lia.
Qed.

(** ** C4: chat de-duplication *)

(** C4.  An empty line or a re-read of the last-seen line classifies as
    no event and leaves the last-seen line; the example stream classifies
    as [None, Damaged, None]; a new non-empty line becomes the last-seen
    line whatever its classification, so reading it again at once gives no
    event (each line is classified once per appearance). *)
Theorem C4_chat_dedup :
  (forall last, check_round_status (Some "") last = (NoStatus, last)) /\
  (forall last, check_round_status (Some last) last = (NoStatus, last)) /\
  classify_stream "" [""; cold_line; cold_line] = [NoStatus; Damaged; NoStatus] /\
  (forall msg last, msg <> "" -> msg <> last ->
     snd (check_round_status (Some msg) last) = msg) /\
  (forall msg last,
     fst (check_round_status (Some msg) (snd (check_round_status (Some msg) last)))
     = NoStatus).
Proof.
  split; [intros; reflexivity|].
  split; [intros last; simpl; rewrite String.eqb_refl, orb_true_r; reflexivity|].
  split; [vm_compute; reflexivity|].
  split.
  - intros msg last H1 H2; simpl.
    apply String.eqb_neq in H1, H2; rewrite H1, H2; simpl.
    repeat match goal with |- context [if ?b then _ else _] => destruct b end;
      reflexivity.
  - intros msg last; simpl.
    destruct (String.eqb msg "" || String.eqb msg last) eqn:E; simpl.
    + rewrite E; reflexivity.
    + rewrite String.eqb_refl, !orb_true_r; reflexivity.
Qed.

(** Witness for [C4_chat_dedup]. *)
Lemma C4_chat_dedup_witness :
  snd (check_round_status (Some cold_line) "") = cold_line.
Proof.
  destruct C4_chat_dedup as (_ & _ & _ & H & _).
  apply H; discriminate.
Defined.

(** ** C8: round end on "subdued" *)

(** C8.  A new non-empty line holding "subdued" in any letter case is a
    round end, whatever else it matches, also when the last-seen line is
    still the initial empty one. *)
Theorem C8_subdued_round_end (msg last pre mid post : string) :
  msg <> "" -> msg <> last ->
  msg = pre ++ mid ++ post -> str_lower mid = "subdued" ->
  check_round_status (Some msg) last = (RoundEnd, msg).
Proof.
  intros H1 H2 Hm Hl; simpl.
  apply String.eqb_neq in H1, H2; rewrite H1, H2; simpl.
  replace (str_contains "subdued" (str_lower msg)) with true; [reflexivity|].
  symmetry; rewrite Hm, !str_lower_app, Hl.
  apply str_contains_app_l, str_contains_prefix.
Qed.

(** Witness for [C8_subdued_round_end]: a first read, mixed case. *)
Lemma C8_subdued_round_end_witness :
  check_round_status (Some "The Wintertodt has been SubDued!")
    (last_chat_msg (init_bot 3 false))
  = (RoundEnd, "The Wintertodt has been SubDued!").
Proof.
  apply (C8_subdued_round_end _ _ "The Wintertodt has been " "SubDued" "!");
    [discriminate | discriminate | reflexivity | vm_compute; reflexivity].
Defined.

(** ** C3: warmth management *)

(** C3.  [__handle_warmth] drinks (and resets the counter) exactly when
    the counter is at or above the threshold with a potion on hand, signals
    exhaustion when at or above it with none, and does nothing below it.
    Exhaustion in [__handle_arena] ends the tick in [__prepare_potions]
    when the round is inactive and in [__exit_arena] when it is active,
    never in the normal actions.  With threshold 3 and three damage lines
    in a round, the counter reads 1, 2 and then 0: the potion is drunk on
    the third hit only. *)
Theorem C3_warmth_threshold :
  (forall s inv, eat_every_n_hits s <= damage_count s ->
     has_any_potion inv = true -> handle_warmth s inv = (true, set_damage_count 0 s)) /\
  (forall s inv, eat_every_n_hits s <= damage_count s ->
     has_any_potion inv = false -> handle_warmth s inv = (false, s)) /\
  (forall s inv, damage_count s < eat_every_n_hits s ->
     handle_warmth s inv = (true, s)) /\
  (forall s e,
     let st := fst (check_round_status (env_chat e) (last_chat_msg s)) in
     (st = Damaged \/ st = NoStatus) ->
     has_any_potion (env_inv e) = false ->
     eat_every_n_hits s <= damage_count s + (if status_is_damaged st then 1 else 0) ->
     snd (handle_arena s e) =
       if round_active s || status_is_damaged st then AExitArena else APreparePotions) /\
  map (fun p => damage_count (fst p))
    (run_ticks (set_round_active true (init_bot 3 false))
       [Env (Some cold_line) [Some REJUVENATION_POTION_4] false true 1;
        Env (Some freezing_line) [Some REJUVENATION_POTION_4] false true 2;
        Env (Some cold_line) [Some REJUVENATION_POTION_4] false true 3])
  = [1; 2; 0].
Proof.
  split; [|split; [|split; [|split]]].
  - intros s inv H Hp; unfold handle_warmth.
    rewrite (proj2 (Z.geb_le _ _) H), Hp, drink_potion_has_any, Hp; reflexivity.
  - intros s inv H Hp; unfold handle_warmth.
    rewrite (proj2 (Z.geb_le _ _) H), Hp; reflexivity.
  - intros s inv H; unfold handle_warmth.
    replace (Z.geb (damage_count s) (eat_every_n_hits s)) with false; [reflexivity|].
    symmetry; rewrite Z.geb_leb; apply Z.leb_gt; exact H.
  - intros s e; simpl; unfold handle_arena, check_round_status_bot.
    destruct (check_round_status (env_chat e) (last_chat_msg s)) as [st last'];
      simpl; intros Hst Hp Hth.
    destruct Hst as [-> | ->]; simpl in *; unfold handle_warmth; simpl.
    + rewrite (proj2 (Z.geb_le _ _) Hth), Hp; simpl; rewrite orb_true_r; reflexivity.
    + rewrite Z.add_0_r in Hth.
      rewrite (proj2 (Z.geb_le _ _) Hth), Hp; simpl; rewrite orb_false_r.
      destruct (round_active s); reflexivity.
  - vm_compute; reflexivity.
Qed.

(** Witness for [C3_warmth_threshold]: mid-round, third hit, no potion. *)
Lemma C3_warmth_threshold_witness :
  snd (handle_arena (set_damage_count 2 (set_round_active true (init_bot 3 false)))
         (Env (Some cold_line) [] false true 0)) = AExitArena.
Proof.
  destruct C3_warmth_threshold as (_ & _ & _ & H & _).
  exact (H (set_damage_count 2 (set_round_active true (init_bot 3 false)))
           (Env (Some cold_line) [] false true 0)
           (or_introl eq_refl) eq_refl (Z.le_refl 3)).
Defined.

(** ** C6: the respawn timer fallback *)

(** C6.  Between rounds, with the round-end timestamp set, a potion on
    hand, no chat event and the counter below the threshold, a tick leaves
    the round inactive (and sleeps) while less than 60 + 5 seconds have
    passed since the round ended, and makes it active otherwise. *)
Theorem C6_respawn_timer (s : bot) (e : env) :
  round_active s = false ->
  (0 < round_ended_at s)%Q ->
  has_any_potion (env_inv e) = true ->
  fst (check_round_status (env_chat e) (last_chat_msg s)) = NoStatus ->
  damage_count s < eat_every_n_hits s ->
  ((env_now e - round_ended_at s < 65)%Q ->
     round_active (fst (handle_arena s e)) = false /\
     snd (handle_arena s e) = AWaitSleep) /\
  ((65 <= env_now e - round_ended_at s)%Q ->
     round_active (fst (handle_arena s e)) = true /\
     snd (handle_arena s e) = AEngage).
Proof.
  intros Hr Hpos Hp Hst Hd.
  unfold handle_arena, check_round_status_bot.
  destruct (check_round_status (env_chat e) (last_chat_msg s)) as [st last'];
    simpl in Hst; subst st.
  unfold handle_warmth; simpl.
  replace (Z.geb (damage_count s) (eat_every_n_hits s)) with false
    by (symmetry; rewrite Z.geb_leb; apply Z.leb_gt; exact Hd).
  simpl; rewrite Hr, Hp; simpl.
  unfold respawn_elapsed; simpl.
  replace (Qle_bool (round_ended_at s) 0) with false
    by (symmetry; apply not_true_iff_false; rewrite Qle_bool_iff;
        apply Qlt_not_le; exact Hpos).
  simpl; change (inject_Z 65) with (65 # 1).
  split; intros Ht.
  - replace (Qle_bool (65 # 1) (env_now e - round_ended_at s)) with false;
      [split; [exact Hr | reflexivity]|].
    symmetry; apply not_true_iff_false; rewrite Qle_bool_iff.
    apply Qlt_not_le; exact Ht.
  - replace (Qle_bool (65 # 1) (env_now e - round_ended_at s)) with true;
      [split; reflexivity|].
    symmetry; apply Qle_bool_iff; exact Ht.
Qed.

(** Witness for [C6_respawn_timer]: round ended at t = 10, checked at
    t = 74 and t = 75. *)
Lemma C6_respawn_timer_witness :
  round_active (fst (handle_arena (set_round_ended_at 10 (init_bot 3 false))
                       (Env None [Some REJUVENATION_POTION_2] false true 74))) = false /\
  round_active (fst (handle_arena (set_round_ended_at 10 (init_bot 3 false))
                       (Env None [Some REJUVENATION_POTION_2] false true 75))) = true.
Proof.
  split.
  - refine (proj1 (proj1 (C6_respawn_timer (set_round_ended_at 10 (init_bot 3 false))
              (Env None [Some REJUVENATION_POTION_2] false true 74)
              eq_refl _ eq_refl eq_refl _) _));
      vm_compute; reflexivity.
  - refine (proj1 (proj2 (C6_respawn_timer (set_round_ended_at 10 (init_bot 3 false))
              (Env None [Some REJUVENATION_POTION_2] false true 75)
              eq_refl _ eq_refl eq_refl _) _));
      vm_compute; try reflexivity; discriminate.
Defined.

(** ** C2 and C10: arena entry *)

(** C2 (counterexample).  The region query answers the arena region on the
    first poll: the entry succeeds and the round is at once taken as active,
    not awaited. *)
Lemma C2_counterexample :
  snd (enter_arena (init_bot 3 false) true [Some WT_ARENA_REGION]) = true /\
  round_active (fst (enter_arena (init_bot 3 false) true [Some WT_ARENA_REGION]))
  <> false.
Proof. vm_compute. split; [reflexivity | discriminate]. Qed.

(** C2 (amended).  Immediately after every successful arena entry (the
    region flips to the arena within the ten polls following the door click)
    the round is taken as active: [round_active] is [true]. *)
Theorem C2_entry_assumes_active (s : bot) (polls : list (option Z)) :
  retry_until 10 is_in_arena polls = true ->
  snd (enter_arena s true polls) = true /\
  round_active (fst (enter_arena s true polls)) = true.
Proof. intros H; unfold enter_arena; rewrite H; split; reflexivity. Qed.

(** Witness for [C2_entry_assumes_active]: arena region on the third poll. *)
Lemma C2_entry_assumes_active_witness :
  round_active (fst (enter_arena (init_bot 3 false) true
                       [None; Some WT_BANK_REGION; Some WT_ARENA_REGION])) = true.
Proof.
  exact (proj2 (C2_entry_assumes_active (init_bot 3 false)
                  [None; Some WT_BANK_REGION; Some WT_ARENA_REGION] eq_refl)).
Defined.

(** C10.  A successful entry resets the damage counter to 0; when the doors
    are not found or the region never flips within the ten polls, the entry
    leaves the whole state, the counter included, unchanged. *)
Theorem C10_entry_resets_damage (s : bot) (doors_found : bool) (polls : list (option Z)) :
  (doors_found = true -> retry_until 10 is_in_arena polls = true ->
     damage_count (fst (enter_arena s doors_found polls)) = 0) /\
  ((doors_found = false \/ retry_until 10 is_in_arena polls = false) ->
     fst (enter_arena s doors_found polls) = s).
Proof.
  unfold enter_arena; split.
  - intros -> H; rewrite H; reflexivity.
  - intros [-> | H]; [reflexivity|].
    destruct doors_found; [rewrite H|]; reflexivity.
Qed.

(** Witness for [C10_entry_resets_damage]: a damage streak of 2 is cleared
    by an entry, and kept by an entry whose polls never see the arena. *)
Lemma C10_entry_resets_damage_witness :
  damage_count (fst (enter_arena (set_damage_count 2 (init_bot 3 false)) true
                       [Some WT_ARENA_REGION])) = 0 /\
  damage_count (fst (enter_arena (set_damage_count 2 (init_bot 3 false)) true
                       (repeat (Some WT_BANK_REGION) 10))) = 2.
Proof.
  split.
  - exact (proj1 (C10_entry_resets_damage (set_damage_count 2 (init_bot 3 false)) true
                    [Some WT_ARENA_REGION]) eq_refl eq_refl).
  - rewrite (proj2 (C10_entry_resets_damage (set_damage_count 2 (init_bot 3 false)) true
                      (repeat (Some WT_BANK_REGION) 10)) (or_intror eq_refl)).
    reflexivity.
Defined.

(** ** C5: the damage counter *)

Ltac split_ifs :=
  repeat match goal with |- context [if ?b then _ else _] => destruct b end.

Lemma handle_arena_damage_shape s e :
  let d := damage_count (fst (handle_arena s e)) in
  d = 0 \/ d = damage_count s \/ d = damage_count s + 1.
Proof.
  unfold handle_arena, check_round_status_bot.
  destruct (check_round_status (env_chat e) (last_chat_msg s)) as [st l].
  destruct st; unfold on_round_end, handle_warmth; rewrite ?drink_potion_has_any;
    simpl; split_ifs; simpl; lia.
Qed.

Lemma wait_while_active_damage_shape polls : forall s,
  let d := damage_count (wait_while_active s polls) in
  d = damage_count s \/ d = damage_count s + 1.
Proof.
  induction polls as [|[idle chat] r IH]; intros s; simpl; [lia|].
  destruct idle; [lia|].
  unfold check_round_status_bot.
  destruct (check_round_status chat (last_chat_msg s)) as [st l].
  destruct st; simpl; try lia.
  apply (IH (set_last_chat_msg l s)).
Qed.

Lemma run_op_damage_shape s o :
  let d := damage_count (run_op s o) in
  d = 0 \/ d = damage_count s \/ d = damage_count s + 1.
Proof.
  destruct o as [e | doors polls | polls | inv]; simpl.
  - apply handle_arena_damage_shape.
  - unfold enter_arena; split_ifs; simpl; lia.
  - destruct (wait_while_active_damage_shape polls s); lia.
  - rewrite drink_potion_has_any; split_ifs; simpl; lia.
Qed.

(** C5.  In every reachable state the damage counter is non-negative; no
    operation changes it other than by a reset to 0 or an increment by 1; a
    brazier-broken tick adds exactly 1; a damaged tick adds exactly 1 unless
    the warmth check then drinks (the raised counter at or above the
    threshold and a potion on hand), which resets it to 0; a damage or
    brazier-broken line seen while waiting on an action adds exactly 1; and
    drinking with a potion on hand resets it to exactly 0. *)
Theorem C5_damage_counter :
  (forall s, reachable s -> 0 <= damage_count s) /\
  (forall s o, let d := damage_count (run_op s o) in
     d = 0 \/ d = damage_count s \/ d = damage_count s + 1) /\
  (forall s e, fst (check_round_status (env_chat e) (last_chat_msg s)) = BrazierBroken ->
     damage_count (fst (handle_arena s e)) = damage_count s + 1) /\
  (forall s e, fst (check_round_status (env_chat e) (last_chat_msg s)) = Damaged ->
     damage_count (fst (handle_arena s e)) =
       if Z.leb (eat_every_n_hits s) (damage_count s + 1) && has_any_potion (env_inv e)
       then 0 else damage_count s + 1) /\
  (forall s chat r,
     let st := fst (check_round_status chat (last_chat_msg s)) in
     (st = Damaged \/ st = BrazierBroken) ->
     damage_count (wait_while_active s ((false, chat) :: r)) = damage_count s + 1) /\
  (forall s inv, has_any_potion inv = true -> damage_count (drink_potion s inv) = 0).
Proof.
  split; [|split; [|split; [|split; [|split]]]].
  - intros s Hr; induction Hr as [n f | s o Hr IH]; [simpl; lia|].
    destruct (run_op_damage_shape s o); lia.
  - apply run_op_damage_shape.
  - intros s e; unfold handle_arena, check_round_status_bot.
    destruct (check_round_status (env_chat e) (last_chat_msg s)) as [st l].
    simpl; intros ->; reflexivity.
  - intros s e; unfold handle_arena, check_round_status_bot.
    destruct (check_round_status (env_chat e) (last_chat_msg s)) as [st l].
    simpl; intros ->; unfold handle_warmth; rewrite drink_potion_has_any; simpl.
    rewrite Z.geb_leb.
    destruct (Z.leb (eat_every_n_hits s) (damage_count s + 1)),
             (has_any_potion (env_inv e)); reflexivity.
  - intros s chat r; simpl; unfold check_round_status_bot.
    destruct (check_round_status chat (last_chat_msg s)) as [st l].
    simpl; intros [-> | ->]; reflexivity.
  - intros s inv H; rewrite drink_potion_has_any, H; reflexivity.
Qed.

(** Witness for [C5_damage_counter]: after a damage tick from the initial
    state the counter is 1, and non-negative. *)
Lemma C5_damage_counter_witness :
  0 <= damage_count (run_op (init_bot 3 false)
                       (OpArenaTick (Env (Some cold_line) [] false true 0))).
Proof.
  apply (proj1 C5_damage_counter).
  apply reach_step, reach_init.
Defined.

(** * Further properties of the code *)

(** ** Gear validation *)

Lemma first_check_missing_nil fletch g :
  (match first_check_missing fletch g with [] => true | _ :: _ => false end)
  = hard_requirements fletch g.
Proof.
  unfold first_check_missing, hard_requirements, has_knife_in.
  destruct fletch;
  destruct (existsb (get_is_item_equipped g) AXE_IDS),
           (existsb (get_if_item_in_inv (g_inv g)) AXE_IDS),
           (has_tinderbox_in g), (get_if_item_in_inv (g_inv g) HAMMER);
  try destruct (get_if_item_in_inv (g_inv g) KNIFE); reflexivity.
Qed.

Lemma recheck_after_withdrawal_hard fletch g :
  recheck_after_withdrawal fletch g = hard_requirements fletch g.
Proof.
  unfold recheck_after_withdrawal, hard_requirements, has_knife_in.
  destruct fletch;
  destruct (existsb (get_is_item_equipped g) AXE_IDS),
           (existsb (get_if_item_in_inv (g_inv g)) AXE_IDS),
           (has_tinderbox_in g), (get_if_item_in_inv (g_inv g) HAMMER);
  try destruct (get_if_item_in_inv (g_inv g) KNIFE); reflexivity.
Qed.

Lemma validate_ok_char fletch g1 b mb mu g2 :
  gr_ok (validate_and_gear_up fletch g1 b mb mu g2) =
    hard_requirements fletch g1
    || (withdraw_missing_tools b mb mu && hard_requirements fletch g2).
Proof.
  rewrite <- first_check_missing_nil, <- recheck_after_withdrawal_hard.
  unfold validate_and_gear_up.
  destruct (first_check_missing fletch g1); [reflexivity|].
  destruct (withdraw_missing_tools b mb mu); reflexivity.
Qed.

Lemma validate_bank_char fletch g1 b mb mu g2 :
  gr_bank_visited (validate_and_gear_up fletch g1 b mb mu g2) =
    negb (hard_requirements fletch g1).
Proof.
  rewrite <- first_check_missing_nil; unfold validate_and_gear_up.
  destruct (first_check_missing fletch g1); [reflexivity|].
  destruct (withdraw_missing_tools b mb mu); reflexivity.
Qed.

(** X1.  The gear check succeeds exactly when the hard requirements (an
    axe equipped or carried, a tinderbox or bruma torch, a hammer, a knife
    when fletching) hold at the first check, or the bank withdrawal opens
    the bank and they hold at the re-check; the bank is visited exactly when
    the first check fails. *)
Theorem X1_gear_check_hard_requirements fletch g1 b mb mu g2 :
  gr_ok (validate_and_gear_up fletch g1 b mb mu g2) =
    hard_requirements fletch g1
    || (withdraw_missing_tools b mb mu && hard_requirements fletch g2) /\
  gr_bank_visited (validate_and_gear_up fletch g1 b mb mu g2) =
    negb (hard_requirements fletch g1).
Proof. split; [apply validate_ok_char | apply validate_bank_char]. Qed.

Lemma existsb_ext_in {A} (f g : A -> bool) l :
  (forall a, In a l -> f a = g a) -> existsb f l = existsb g l.
Proof.
  induction l as [|a l IH]; intros H; [reflexivity|]; simpl.
  rewrite (H a (or_introl eq_refl)), IH; [reflexivity|].
  intros x Hx; apply H; right; exact Hx.
Qed.

Lemma validate_depends_on_axes fletch eq eq' inv b mb mu g2 :
  existsb (get_is_item_equipped (GearView eq inv)) AXE_IDS =
  existsb (get_is_item_equipped (GearView eq' inv)) AXE_IDS ->
  let r := validate_and_gear_up fletch (GearView eq inv) b mb mu g2 in
  let r' := validate_and_gear_up fletch (GearView eq' inv) b mb mu g2 in
  gr_ok r = gr_ok r' /\ gr_missing r = gr_missing r' /\
  gr_bank_visited r = gr_bank_visited r'.
Proof.
  intros H; simpl.
  assert (Hm : first_check_missing fletch (GearView eq inv)
               = first_check_missing fletch (GearView eq' inv))
    by (unfold first_check_missing; rewrite H; reflexivity).
  unfold validate_and_gear_up; rewrite Hm.
  destruct (first_check_missing fletch (GearView eq' inv));
    [repeat split; reflexivity|].
  destruct (withdraw_missing_tools b mb mu); repeat split; reflexivity.
Qed.

(** X2.  Warm clothing never decides the gear check: two equipment sets
    that agree on which axes are worn give the same verdict, the same
    missing list and the same bank visit, whatever their warm-item counts. *)
Theorem X2_gear_check_ignores_warm_items fletch eq eq' inv b mb mu g2 :
  (forall a, In a AXE_IDS -> existsb (Z.eqb a) eq = existsb (Z.eqb a) eq') ->
  let r := validate_and_gear_up fletch (GearView eq inv) b mb mu g2 in
  let r' := validate_and_gear_up fletch (GearView eq' inv) b mb mu g2 in
  gr_ok r = gr_ok r' /\ gr_missing r = gr_missing r' /\
  gr_bank_visited r = gr_bank_visited r'.
Proof.
  intros H; apply validate_depends_on_axes.
  apply existsb_ext_in; exact H.
Qed.

(** Witness for [X2_gear_check_ignores_warm_items]: an infernal axe alone
    against the axe with four pyromancer pieces. *)
Lemma X2_gear_check_ignores_warm_items_witness :
  gr_ok (validate_and_gear_up false (GearView [INFERNAL_AXE] [Some TINDERBOX; Some HAMMER])
           false false false (GearView [] [])) =
  gr_ok (validate_and_gear_up false
           (GearView [INFERNAL_AXE; 20708; 20704; 20706; 20710] [Some TINDERBOX; Some HAMMER])
           false false false (GearView [] [])).
Proof.
  refine (proj1 (X2_gear_check_ignores_warm_items false [INFERNAL_AXE]
            [INFERNAL_AXE; 20708; 20704; 20706; 20710] [Some TINDERBOX; Some HAMMER]
            false false false (GearView [] []) _)).
  intros a Ha; simpl in Ha.
  repeat (destruct Ha as [<- | Ha]; [reflexivity|]); contradiction.
Defined.

(** ** Bank area *)

Lemma get_inv_from_In k inv i id :
  In (i, id) (get_inv_from k inv) <->
  exists j, i = (k + j)%nat /\ nth_error inv j = Some (Some id).
Proof.
  revert k; induction inv as [|o r IH]; intros k; simpl.
  - split; [contradiction|]. intros [j [_ Hj]]; destruct j; discriminate.
  - destruct o as [id'|].
    + simpl; rewrite IH; split.
      * intros [Heq | [j [-> Hj]]].
        -- injection Heq as <- <-; exists O; split; [lia | reflexivity].
        -- exists (S j); split; [lia | exact Hj].
      * intros [[|j] [-> Hj]]; simpl in Hj.
        -- injection Hj as <-; left; f_equal; lia.
        -- right; exists j; split; [lia | exact Hj].
    + rewrite IH; split.
      * intros [j [-> Hj]]; exists (S j); split; [lia | exact Hj].
      * intros [[|j] [-> Hj]]; simpl in Hj; [discriminate|].
        exists j; split; [lia | exact Hj].
Qed.

Lemma get_inv_In inv i id :
  In (i, id) (get_inv inv) <-> nth_error inv i = Some (Some id).
Proof.
  unfold get_inv; rewrite get_inv_from_In; split.
  - intros [j [-> Hj]]; exact Hj.
  - intros H; exists i; split; [reflexivity | exact H].
Qed.

Lemma deposit_non_tools_In fletch inv i :
  In i (deposit_non_tools fletch inv) <->
  exists id, nth_error inv i = Some (Some id) /\ is_tool fletch id = false.
Proof.
  unfold deposit_non_tools; rewrite in_map_iff; split.
  - intros [[i' id] [Hi Hin]]; simpl in Hi; subst i'.
    apply filter_In in Hin as [Hin Ht]; simpl in Ht.
    exists id; split; [apply get_inv_In; exact Hin | destruct (is_tool fletch id); easy].
  - intros [id [Hn Ht]]; exists (i, id); split; [reflexivity|].
    apply filter_In; split; [apply get_inv_In; exact Hn | simpl; rewrite Ht; reflexivity].
Qed.

Lemma has_loot_deposit fletch inv :
  has_loot fletch inv = negb (Nat.eqb (length (deposit_non_tools fletch inv)) 0).
Proof.
  unfold has_loot, deposit_non_tools; rewrite length_map.
  induction (get_inv inv) as [|x r IH]; [reflexivity|]; simpl.
  destruct (negb (is_tool fletch (snd x))); simpl; [reflexivity | exact IH].
Qed.

(** X3.  The loot test of [__handle_bank_area] and the deposit of
    [__deposit_non_tools] agree: the deposit clicks exactly the slots that
    hold an item other than the kept tools (tinderbox, hammer, and the knife
    when fletching), and the bank is used exactly when that set is
    non-empty; otherwise the tick goes to the doors. *)
Theorem X3_bank_deposits_exactly_non_tools (s : bot) (inv : inventory) doors polls :
  (forall i, In i (deposit_non_tools (fletch_roots s) inv) <->
     exists id, nth_error inv i = Some (Some id) /\ is_tool (fletch_roots s) id = false) /\
  (snd (handle_bank_area s inv doors polls) = BDoBanking <->
     deposit_non_tools (fletch_roots s) inv <> []) /\
  (deposit_non_tools (fletch_roots s) inv = [] ->
     handle_bank_area s inv doors polls =
       (fst (enter_arena s doors polls), BEnterArena (snd (enter_arena s doors polls)))).
Proof.
  split; [intros i; apply deposit_non_tools_In|].
  unfold handle_bank_area; rewrite has_loot_deposit.
  destruct (deposit_non_tools (fletch_roots s) inv) eqn:E; simpl.
  - split; [split; [intros H | intros H; contradiction H; reflexivity]|].
    + destruct (enter_arena s doors polls); discriminate.
    + intros _; destruct (enter_arena s doors polls); reflexivity.
  - split; [split; [intros _; discriminate | reflexivity]|].
    intros H; discriminate.
Qed.

(** Witness for [X3_bank_deposits_exactly_non_tools]. *)
Lemma X3_bank_deposits_exactly_non_tools_witness :
  handle_bank_area (init_bot 3 false) [Some TINDERBOX; None; Some HAMMER] true
    [Some WT_ARENA_REGION]
  = (fst (enter_arena (init_bot 3 false) true [Some WT_ARENA_REGION]),
     BEnterArena (snd (enter_arena (init_bot 3 false) true [Some WT_ARENA_REGION]))).
Proof.
  exact (proj2 (proj2 (X3_bank_deposits_exactly_non_tools (init_bot 3 false)
            [Some TINDERBOX; None; Some HAMMER] true [Some WT_ARENA_REGION])) eq_refl).
Defined.



(** ** Bank interface geometry *)

Lemma half_floor_bounds d :
  0 <= d - 2 * (d / 2) <= 1 /\ (0 <= d / 2 <-> 0 <= d) /\ (0 <= d -> d / 2 <= d).
Proof.
  pose proof (Z.div_mod d 2 ltac:(lia)) as H.
  pose proof (Z.mod_pos_bound d 2 ltac:(lia)) as Hm.
  repeat split; intros; lia.
Qed.

(** X5.  The computed bank panel is centred in the game view: its right
    margin exceeds its left margin by 0 or 1 pixel, in each direction; and
    it lies inside the game view horizontally exactly when the view is at
    least 488 pixels wide, vertically exactly when it is at least 300 high. *)
Theorem X5_bank_origin_centred (gv : rect) :
  let (bx, by_) := get_bank_origin gv in
  0 <= (r_left gv + r_width gv - (bx + BANK_INTERFACE_W)) - (bx - r_left gv) <= 1 /\
  0 <= (r_top gv + r_height gv - (by_ + BANK_INTERFACE_H)) - (by_ - r_top gv) <= 1 /\
  (r_left gv <= bx /\ bx + BANK_INTERFACE_W <= r_left gv + r_width gv
     <-> BANK_INTERFACE_W <= r_width gv) /\
  (r_top gv <= by_ /\ by_ + BANK_INTERFACE_H <= r_top gv + r_height gv
     <-> BANK_INTERFACE_H <= r_height gv).
Proof.
  unfold get_bank_origin, BANK_INTERFACE_W, BANK_INTERFACE_H.
  destruct gv as [l t w h]; simpl.
  pose proof (half_floor_bounds (w - 488)).
  pose proof (half_floor_bounds (h - 300)).
  repeat split; lia.
Qed.

(** ** Potion preparation *)



(** ** The crate and herb click loops *)

Lemma click_loop_le n ms : (click_loop n ms <= n)%nat.
Proof.
  revert ms; induction n as [|n IH]; intros [|m r]; simpl; try lia.
  destruct m; [specialize (IH r); lia | lia].
Qed.

Lemma click_loop_all n ms :
  (n <= length ms)%nat -> (forall b, In b (firstn n ms) -> b = true) ->
  click_loop n ms = n.
Proof.
  revert ms; induction n as [|n IH]; intros [|m r] Hl Hb; simpl in *; try lia.
  rewrite (Hb m (or_introl eq_refl)).
  f_equal; apply IH; [lia | intros b Hin; apply Hb; right; exact Hin].
Qed.

Lemma click_loop_stop n pre post :
  (length pre < n)%nat -> (forall b, In b pre -> b = true) ->
  click_loop n (pre ++ false :: post) = length pre.
Proof.
  revert n; induction pre as [|m r IH]; intros [|n] Hl Hb; simpl in *;
    try lia; try reflexivity.
  rewrite (Hb m (or_introl eq_refl)); f_equal.
  apply IH; [lia | intros b Hin; apply Hb; right; exact Hin].
Qed.

(** X7.  [__take_from_crate] (and [__pick_herbs], the same loop) clicks at
    most [count] times, never without a tagged target or for a count of 0
    or less; it clicks exactly [count] times when every mouse-over shows the
    option, and stops at the first mouse-over that does not. *)
Theorem X7_click_loop_bounds (found : bool) (count : Z) (ms : list bool) :
  (take_from_crate found count ms <= Z.to_nat count)%nat /\
  (found = false -> take_from_crate found count ms = O) /\
  (count <= 0 -> take_from_crate found count ms = O) /\
  (found = true -> (Z.to_nat count <= length ms)%nat ->
     (forall b, In b (firstn (Z.to_nat count) ms) -> b = true) ->
     take_from_crate found count ms = Z.to_nat count) /\
  (forall pre post, found = true -> (length pre < Z.to_nat count)%nat ->
     (forall b, In b pre -> b = true) ->
     take_from_crate found count (pre ++ false :: post) = length pre).
Proof.
  unfold take_from_crate; split; [|split; [|split; [|split]]].
  - destruct found; simpl; [apply click_loop_le | lia].
  - intros ->; reflexivity.
  - intros H; destruct found; simpl; [|reflexivity].
    replace (Z.to_nat count) with O by lia; reflexivity.
  - intros -> Hl Hb; apply click_loop_all; assumption.
  - intros pre post -> Hl Hb; apply click_loop_stop; assumption.
Qed.

(** Witness for [X7_click_loop_bounds]: asked for 3, the second mouse-over
    misses. *)
Lemma X7_click_loop_bounds_witness :
  take_from_crate true 3 ([true] ++ false :: [true]) = 1%nat.
Proof.
  exact (proj2 (proj2 (proj2 (proj2 (X7_click_loop_bounds true 3 ([true] ++ false :: [true])))))
           [true] [true] eq_refl ltac:(simpl; lia)
           (fun b Hb => match Hb with or_introl H => eq_sym H | or_intror F => False_ind _ F end)).
Defined.

(** ** Leaving the arena *)



(** ** Saving the options *)

Lemma save_option_known o k v :
  known_option k = match save_option o k v with Some _ => true | None => false end.
Proof.
  unfold known_option, save_option; simpl.
  destruct (String.eqb k "running_time"); [reflexivity|].
  destruct (String.eqb k "eat_every_n_hits"); [reflexivity|].
  destruct (String.eqb k "potion_count"); [reflexivity|].
  destruct (String.eqb k "fletch_roots"); [reflexivity|].
  destruct (String.eqb k "take_breaks"); reflexivity.
Qed.

(** X9.  [save_options] marks the options as set exactly when every key is
    one of the five known ones; at the first unknown key it stops, so no
    later entry is applied. *)
Theorem X9_save_options_unknown_key (o : options) (opts : list (string * opt_value)) :
  o_options_set (save_options o opts) = forallb (fun kv => known_option (fst kv)) opts /\
  (forall pre k v post, known_option k = false ->
     save_options o (pre ++ (k, v) :: post) = save_options o (pre ++ [(k, v)])).
Proof.
  split.
  - revert o; induction opts as [|[k v] r IH]; intros o; simpl; [reflexivity|].
    rewrite (save_option_known o k v).
    destruct (save_option o k v); simpl; [apply IH | reflexivity].
  - intros pre k v post Hk; revert o.
    induction pre as [|[k' v'] r IH]; intros o; simpl.
    + rewrite (save_option_known o k v) in Hk.
      destruct (save_option o k v); [discriminate | reflexivity].
    + destruct (save_option o k' v'); [apply IH | reflexivity].
Qed.

(** Witness for [X9_save_options_unknown_key]: a misspelt key stops the
    loop before [fletch_roots] is read. *)
Lemma X9_save_options_unknown_key_witness :
  save_options (Options (OInt 60) (OInt 3) (OInt 4) false false false)
    ([("running_time", OInt 90)] ++ ("potion_cnt", OInt 5) :: [("fletch_roots", OList [" "])])
  = save_options (Options (OInt 60) (OInt 3) (OInt 4) false false false)
      ([("running_time", OInt 90)] ++ [("potion_cnt", OInt 5)]).
Proof.
  apply (proj2 (X9_save_options_unknown_key (Options (OInt 60) (OInt 3) (OInt 4) false false false)
                  [])).
  reflexivity.
Defined.

(** ** Waiting on an action *)

Lemma wait_while_active_fields polls : forall s,
  round_ended_at (wait_while_active s polls) = round_ended_at s /\
  rounds_completed (wait_while_active s polls) = rounds_completed s /\
  eat_every_n_hits (wait_while_active s polls) = eat_every_n_hits s /\
  fletch_roots (wait_while_active s polls) = fletch_roots s.
Proof.
  induction polls as [|[idle chat] r IH]; intros s; simpl; [repeat split; reflexivity|].
  destruct idle; [repeat split; reflexivity|].
  unfold check_round_status_bot.
  destruct (check_round_status chat (last_chat_msg s)) as [st l].
  destruct st; simpl; try (repeat split; reflexivity).
  apply (IH (set_last_chat_msg l s)).
Qed.

(** X10.  [__wait_while_active] never writes the round-end timestamp, the
    round count or the options; an idle first sample returns at once without
    reading the chat; a round-end line seen while waiting makes the round
    inactive but, unlike [__on_round_end], leaves the round-end timestamp
    (and so the respawn timer) where it was. *)
Theorem X10_wait_while_active_frame :
  (forall polls s,
     round_ended_at (wait_while_active s polls) = round_ended_at s /\
     rounds_completed (wait_while_active s polls) = rounds_completed s /\
     eat_every_n_hits (wait_while_active s polls) = eat_every_n_hits s /\
     fletch_roots (wait_while_active s polls) = fletch_roots s) /\
  (forall s chat r, wait_while_active s ((true, chat) :: r) = s) /\
  (forall s chat r, fst (check_round_status chat (last_chat_msg s)) = RoundEnd ->
     round_active (wait_while_active s ((false, chat) :: r)) = false /\
     round_ended_at (wait_while_active s ((false, chat) :: r)) = round_ended_at s).
Proof.
  split; [intros polls s; apply wait_while_active_fields|].
  split; [intros; reflexivity|].
  - intros s chat r; simpl; unfold check_round_status_bot.
    destruct (check_round_status chat (last_chat_msg s)) as [st l]; simpl.
    intros ->; split; reflexivity.
Qed.

(** Witness for [X10_wait_while_active_frame]. *)
Lemma X10_wait_while_active_frame_witness :
  round_ended_at (wait_while_active (set_round_ended_at 7 (set_round_active true (init_bot 3 false)))
                    [(false, Some "The Wintertodt has been subdued.")]) = 7%Q.
Proof.
  exact (proj2 ((proj2 (proj2 X10_wait_while_active_frame))
                  (set_round_ended_at 7 (set_round_active true (init_bot 3 false)))
                  (Some "The Wintertodt has been subdued.") [] eq_refl)).
Defined.

(** ** The round lifecycle *)

Lemma waiting_tick s e :
  round_active s = false ->
  (0 < round_ended_at s)%Q ->
  has_any_potion (env_inv e) = true ->
  fst (check_round_status (env_chat e) (last_chat_msg s)) = NoStatus ->
  damage_count s < eat_every_n_hits s ->
  ((env_now e - round_ended_at s < 65)%Q ->
     round_active (fst (handle_arena s e)) = false) /\
  ((65 <= env_now e - round_ended_at s)%Q ->
     round_active (fst (handle_arena s e)) = true).
Proof.
  intros Hr Hpos Hp Hst Hd.
  unfold handle_arena, check_round_status_bot.
  destruct (check_round_status (env_chat e) (last_chat_msg s)) as [st last'];
    simpl in Hst; subst st.
  unfold handle_warmth; simpl.
  replace (Z.geb (damage_count s) (eat_every_n_hits s)) with false
    by (symmetry; rewrite Z.geb_leb; apply Z.leb_gt; exact Hd).
  simpl; rewrite Hr, Hp; simpl.
  unfold respawn_elapsed; simpl.
  replace (Qle_bool (round_ended_at s) 0) with false
    by (symmetry; apply not_true_iff_false; rewrite Qle_bool_iff;
        apply Qlt_not_le; exact Hpos).
  simpl; change (inject_Z 65) with (65 # 1).
  split; intros Ht.
  - replace (Qle_bool (65 # 1) (env_now e - round_ended_at s)) with false; [exact Hr|].
    symmetry; apply not_true_iff_false; rewrite Qle_bool_iff.
    apply Qlt_not_le; exact Ht.
  - replace (Qle_bool (65 # 1) (env_now e - round_ended_at s)) with true; [reflexivity|].
    symmetry; apply Qle_bool_iff; exact Ht.
Qed.

(** X11.  A round-end tick at time [t1 > 0] counts the round, makes it
    inactive, stamps [t1] and prepares potions exactly when fewer than 4
    doses are on hand; a following quiet tick at [t2] (no chat event, a
    potion on hand, the counter below the threshold) keeps waiting while
    [t2 - t1 < 65] and engages once [t2 - t1 >= 65]. *)
Theorem X11_round_end_then_respawn (s : bot) (e1 e2 : env) :
  fst (check_round_status (env_chat e1) (last_chat_msg s)) = RoundEnd ->
  (0 < env_now e1)%Q ->
  has_any_potion (env_inv e2) = true ->
  fst (check_round_status (env_chat e2) (last_chat_msg (fst (handle_arena s e1)))) = NoStatus ->
  damage_count s < eat_every_n_hits s ->
  let s1 := fst (handle_arena s e1) in
  rounds_completed s1 = rounds_completed s + 1 /\
  round_active s1 = false /\ round_ended_at s1 = env_now e1 /\
  snd (handle_arena s e1) = AOnRoundEnd (Z.ltb (count_potion_doses (env_inv e1)) 4) /\
  ((env_now e2 - env_now e1 < 65)%Q -> round_active (fst (handle_arena s1 e2)) = false) /\
  ((65 <= env_now e2 - env_now e1)%Q -> round_active (fst (handle_arena s1 e2)) = true).
Proof.
  intros H1 Ht1 Hp H2 Hd.
  assert (E : handle_arena s e1 =
    (set_round_ended_at (env_now e1)
       (set_rounds_completed (rounds_completed s + 1)
          (set_round_active false
             (set_last_chat_msg (snd (check_round_status (env_chat e1) (last_chat_msg s))) s))),
     AOnRoundEnd (Z.ltb (count_potion_doses (env_inv e1)) 4))).
  { unfold handle_arena, check_round_status_bot.
    destruct (check_round_status (env_chat e1) (last_chat_msg s)) as [st l];
      simpl in H1; subst st; reflexivity. }
  simpl; rewrite E in *; simpl in *.
  split; [reflexivity|]; split; [reflexivity|]; split; [reflexivity|]; split; [reflexivity|].
  exact (waiting_tick (set_round_ended_at (env_now e1)
       (set_rounds_completed (rounds_completed s + 1)
          (set_round_active false
             (set_last_chat_msg (snd (check_round_status (env_chat e1) (last_chat_msg s))) s))))
     e2 eq_refl Ht1 Hp H2 Hd).
Qed.

(** Witness for [X11_round_end_then_respawn]: the round ends at t = 100;
    the quiet tick at t = 170 engages. *)
Lemma X11_round_end_then_respawn_witness :
  round_active (fst (handle_arena
     (fst (handle_arena (set_round_active true (init_bot 3 false))
             (Env (Some "The Wintertodt has been subdued!") [] false true 100)))
     (Env None [Some REJUVENATION_POTION_4] false true 170))) = true.
Proof.
  refine (proj2 (proj2 (proj2 (proj2 (proj2
    (X11_round_end_then_respawn (set_round_active true (init_bot 3 false))
       (Env (Some "The Wintertodt has been subdued!") [] false true 100)
       (Env None [Some REJUVENATION_POTION_4] false true 170)
       _ _ eq_refl eq_refl _))))) _);
    vm_compute; try reflexivity; discriminate.
Defined.

(** X12.  The round count moves only in an arena tick that reads a new
    round-end line, by exactly 1; no other tick, entry, wait or drink
    changes it. *)
Theorem X12_rounds_completed_counts_round_ends (s : bot) (o : op) :
  rounds_completed (run_op s o) =
    rounds_completed s + (if op_sees_round_end s o then 1 else 0).
Proof.
  destruct o as [e | doors polls | polls | inv]; simpl.
  - unfold handle_arena, check_round_status_bot.
    destruct (check_round_status (env_chat e) (last_chat_msg s)) as [st l]; simpl.
    destruct st; unfold handle_warmth, on_round_end; rewrite ?drink_potion_has_any;
      simpl; split_ifs; simpl; lia.
  - unfold enter_arena; split_ifs; simpl; lia.
  - rewrite (proj1 (proj2 (wait_while_active_fields polls s))); lia.
  - rewrite drink_potion_has_any; split_ifs; simpl; lia.
Qed.

(** X13.  Before any round end has been stamped (the initial
    [round_ended_at = 0.0]), the respawn timer never starts a round: an
    inactive round stays inactive through a tick without a chat event,
    whatever the clock, the counter or the inventory. *)
Theorem X13_no_timer_before_first_round_end (s : bot) (e : env) :
  round_active s = false ->
  (round_ended_at s <= 0)%Q ->
  fst (check_round_status (env_chat e) (last_chat_msg s)) = NoStatus ->
  round_active (fst (handle_arena s e)) = false.
Proof.
  intros Hr Hz Hst.
  unfold handle_arena, check_round_status_bot.
  destruct (check_round_status (env_chat e) (last_chat_msg s)) as [st l];
    simpl in Hst; subst st.
  unfold handle_warmth; rewrite drink_potion_has_any.
  assert (Hu : forall s' t, round_ended_at s' = round_ended_at s ->
                 respawn_elapsed s' t = false).
  { intros s' t Heq; unfold respawn_elapsed; rewrite Heq.
    rewrite (proj2 (Qle_bool_iff _ _) Hz); reflexivity. }
  destruct (Z.geb (damage_count (set_last_chat_msg l s)) (eat_every_n_hits (set_last_chat_msg l s)));
    destruct (has_any_potion (env_inv e)); cbn -[respawn_elapsed do_wintertodt_actions];
    rewrite ?Hr; cbn -[respawn_elapsed do_wintertodt_actions];
    try rewrite Hu by reflexivity; simpl; exact Hr.
Qed.

(** Witness for [X13_no_timer_before_first_round_end]: a fresh bot ten
    minutes in. *)
Lemma X13_no_timer_before_first_round_end_witness :
  round_active (fst (handle_arena (init_bot 3 false)
                       (Env None [Some REJUVENATION_POTION_4] false true 600))) = false.
Proof.
  apply X13_no_timer_before_first_round_end;
    [reflexivity | vm_compute; discriminate | reflexivity].
Defined.

(** ** Brazier events *)



(** ** The planner and the fletching option *)

(** X15.  With fletching disabled the planner never fletches; with it
    enabled and roots in the inventory it never feeds the brazier (raw
    roots are always fletched first, or more are chopped). *)
Theorem X15_planner_respects_fletch_option (s : bot) (e : env) :
  (fletch_roots s = false -> do_wintertodt_actions s e <> Some Fletch) /\
  (fletch_roots s = true -> get_if_item_in_inv (env_inv e) BRUMA_ROOT = true ->
     do_wintertodt_actions s e <> Some Feed).
Proof.
  unfold do_wintertodt_actions; split.
  - intros ->; simpl; split_ifs; discriminate.
  - intros -> ->; simpl; split_ifs; discriminate.
Qed.

(** Witness for [X15_planner_respects_fletch_option]. *)
Lemma X15_planner_respects_fletch_option_witness :
  do_wintertodt_actions (init_bot 3 true)
    (Env None [Some BRUMA_ROOT; Some BRUMA_KINDLING] false true 0) <> Some Feed.
Proof.
  exact (proj2 (X15_planner_respects_fletch_option (init_bot 3 true)
           (Env None [Some BRUMA_ROOT; Some BRUMA_KINDLING] false true 0)) eq_refl eq_refl).
Defined.

(** ** Chat classification by prefix *)

Lemma prefix_true_app p s : prefix p s = true -> exists r, s = p ++ r.
Proof.
  revert s; induction p as [|c p IH]; intros s H; [exists s; reflexivity|].
  destruct s as [|c' s]; simpl in H; [discriminate|].
  destruct (ascii_dec c c') as [<-|]; [|discriminate].
  destruct (IH s H) as [r ->]; exists r; reflexivity.
Qed.

(** X16.  A failing chat query is no event and keeps the last-seen line.
    A new non-empty line that does not mention "subdued" (in any case) is a
    damage event when it starts with "The cold of" or "The freezing cold
    attack", a brazier-out event when it starts with "The brazier has gone
    out", and a brazier-broken event when it starts with "The brazier is
    broken and shrapnel". *)
Theorem X16_classification_by_prefix (msg last : string) :
  check_round_status None last = (NoStatus, last) /\
  (msg <> "" -> msg <> last -> str_contains "subdued" (str_lower msg) = false ->
   ((startswith msg "The cold of" = true \/
     startswith msg "The freezing cold attack" = true) ->
      fst (check_round_status (Some msg) last) = Damaged) /\
   (startswith msg "The brazier has gone out" = true ->
      fst (check_round_status (Some msg) last) = BrazierOut) /\
   (startswith msg "The brazier is broken and shrapnel" = true ->
      fst (check_round_status (Some msg) last) = BrazierBroken)).
Proof.
  split; [reflexivity|].
  intros H1 H2 Hs; simpl.
  apply String.eqb_neq in H1, H2; rewrite H1, H2, Hs; simpl.
  unfold startswith; split; [|split].
  - intros [H | H]; apply prefix_true_app in H as [r ->]; simpl; destruct r; reflexivity.
  - intros H; apply prefix_true_app in H as [r ->]; simpl; destruct r; reflexivity.
  - intros H; apply prefix_true_app in H as [r ->]; simpl; destruct r; reflexivity.
Qed.

(** Witness for [X16_classification_by_prefix]. *)
Lemma X16_classification_by_prefix_witness :
  fst (check_round_status (Some freezing_line) cold_line) = Damaged.
Proof.
  refine (proj1 (proj2 (X16_classification_by_prefix freezing_line cold_line)
                   _ _ _) _);
    [discriminate | discriminate | vm_compute; reflexivity | right; reflexivity].
Defined.
